(** * Storage facade of [api/extensions/ext_storage.py]

    A shallow embedding of the [Storage] facade, of its [timeit]
    instrumentation decorator and of [Storage.get_storage_factory],
    followed by the properties the specification states about them.

    Python objects that live outside the module are part of an explicit
    state: the three Prometheus metrics (two labelled counters and one
    labelled histogram), the records handed to [logger.exception], and
    an environment [E] that stands for everything the backend adapter can
    touch (object store, file system, network, the monotonic clock). *)

From stdpp Require Import gmap strings list fin_maps.
From Stdlib Require Import ZArith Lia.

Open Scope Z_scope.
Set Warnings "-register-all".

(** ** Python values, exceptions and outcomes *)

Definition bytes := list Byte.byte.

(** An instance of [Exception]: what [except Exception as e] binds. *)
Record PyException := mkExc { exc_type : string; exc_message : string }.

(** The built-in exceptions that derive from [BaseException] but not from
    [Exception]; a clause [except Exception] lets them pass. *)
Inductive BaseOnly := KeyboardInterrupt | SystemExit | GeneratorExit.

(** How a Python call ends. *)
Inductive Outcome (A : Type) :=
| Return (a : A)
| Raise (e : PyException)
| RaiseBase (b : BaseOnly).
Arguments Return {A} a.
Arguments Raise {A} e.
Arguments RaiseBase {A} b.

(** One step of a generator: [next(g)] yields a chunk and leaves the
    generator in its next state, or ends with [StopIteration], or raises. *)
Inductive GenStep (G : Type) :=
| Yield (chunk : bytes) (rest : G)
| StopIteration
| GenRaise (e : PyException).
Arguments Yield {G} chunk rest.
Arguments StopIteration {G}.
Arguments GenRaise {G} e.

(** A generator object: resuming it runs backend code against the
    environment. *)
Inductive Generator (E : Type) :=
| Gen (next : E -> GenStep (Generator E) * E).
Arguments Gen {E} next.

(** The Python values that cross the facade. *)
Inductive Value (E : Type) :=
| VNone
| VBool (b : bool)
| VBytes (b : bytes)
| VGen (g : Generator E).
Arguments VNone {E}.
Arguments VBool {E} b.
Arguments VBytes {E} b.
Arguments VGen {E} g.

(** ** The backend capability contract: [BaseStorage]

    Only the signatures are known to the facade; the adapter is the
    attribute [self.storage_runner]. *)
Record BaseStorage (E : Type) := {
  bs_save : string -> bytes -> E -> Outcome (Value E) * E;
  bs_load_once : string -> E -> Outcome (Value E) * E;
  bs_load_stream : string -> E -> Outcome (Value E) * E;
  bs_download : string -> string -> E -> Outcome (Value E) * E;
  bs_exists : string -> E -> Outcome (Value E) * E;
  bs_delete : string -> E -> Outcome (Value E) * E
}.
Arguments bs_save {E} _ _ _ _.
Arguments bs_load_once {E} _ _ _.
Arguments bs_load_stream {E} _ _ _.
Arguments bs_download {E} _ _ _ _.
Arguments bs_exists {E} _ _ _.
Arguments bs_delete {E} _ _ _.

(** ** Metrics and log *)

(** A label pair [(method, provider)]. *)
Abbreviation Label := (string * string)%type.

(** [Counter.labels(...).inc()] *)
Definition counter_value (c : gmap Label nat) (l : Label) : nat :=
  default 0%nat (c !! l).

Definition counter_inc (l : Label) (c : gmap Label nat) : gmap Label nat :=
  <[l := S (counter_value c l)]> c.

(** [Histogram.labels(...).observe(x)]: the observations of a series, in
    the order they were made. *)
Definition observations (h : gmap Label (list Z)) (l : Label) : list Z :=
  default [] (h !! l).

Definition histogram_observe (l : Label) (x : Z) (h : gmap Label (list Z))
  : gmap Label (list Z) :=
  <[l := observations h l ++ [x]]> h.

Arguments counter_value : simpl never.
Arguments observations : simpl never.

(** A record produced by [logger.exception(msg)]: level ERROR, the message
    and the exception being handled. *)
Record LogRecord := mkLog { log_message : string; log_exc_info : PyException }.

(** ** The state the facade runs in

    [logger] holds the records of this module's logger
    ([logging.getLogger(__name__)]); the three metrics are the module's
    own objects, which no adapter refers to. *)

Record World (E : Type) := mkWorld {
  storage_request_total_counter : gmap Label nat;
  storage_request_failed_counter : gmap Label nat;
  storage_request_latency : gmap Label (list Z);
  logger : list LogRecord;
  env : E
}.
Arguments mkWorld {E} _ _ _ _ _.
Arguments storage_request_total_counter {E} _.
Arguments storage_request_failed_counter {E} _.
Arguments storage_request_latency {E} _.
Arguments logger {E} _.
Arguments env {E} _.

(** Computations: state passing with an outcome. *)
Definition M (E A : Type) := World E -> Outcome A * World E.

Definition ret {E A} (a : A) : M E A := fun w => (Return a, w).

Definition bind {E A B} (m : M E A) (k : A -> M E B) : M E B := fun w =>
  match m w with
  | (Return a, w') => k a w'
  | (Raise e, w') => (Raise e, w')
  | (RaiseBase b, w') => (RaiseBase b, w')
  end.

Section Instrumentation.

Context {E : Type}.

(** [timeit.default_timer] as used by [prometheus_client]'s [Timer]:
    reading the clock is an action on the environment. *)
Variable default_timer : E -> Z * E.

(** [dify_config.STORAGE_TYPE] *)
Variable STORAGE_TYPE : string.

Definition set_env (x : E) (w : World E) : World E :=
  mkWorld (storage_request_total_counter w) (storage_request_failed_counter w)
          (storage_request_latency w) (logger w) x.

Definition total_inc (l : Label) (w : World E) : World E :=
  mkWorld (counter_inc l (storage_request_total_counter w))
          (storage_request_failed_counter w)
          (storage_request_latency w) (logger w) (env w).

Definition failed_inc (l : Label) (w : World E) : World E :=
  mkWorld (storage_request_total_counter w)
          (counter_inc l (storage_request_failed_counter w))
          (storage_request_latency w) (logger w) (env w).

Definition latency_observe (l : Label) (x : Z) (w : World E) : World E :=
  mkWorld (storage_request_total_counter w) (storage_request_failed_counter w)
          (histogram_observe l x (storage_request_latency w)) (logger w) (env w).

(** [logger.exception(msg)] inside a handler for [e]. *)
Definition logger_exception (msg : string) (e : PyException) (w : World E)
  : World E :=
  mkWorld (storage_request_total_counter w) (storage_request_failed_counter w)
          (storage_request_latency w) (logger w ++ [mkLog msg e]) (env w).

(** A call of a method of the backend adapter: it acts on the
    environment only. *)
Definition call_backend (f : E -> Outcome (Value E) * E) : M E (Value E) :=
  fun w => let '(r, x) := f (env w) in (r, set_env x w).

(** [Timer.__enter__]: [self._start = default_timer()] *)
Definition timer_enter (w : World E) : Z * World E :=
  let '(t, x) := default_timer (env w) in (t, set_env x w).

(** [Timer.__exit__]: [duration = max(default_timer() - self._start, 0)],
    then [observe(duration)]. It runs however the body ended. *)
Definition timer_exit (l : Label) (start : Z) (w : World E) : World E :=
  let '(t, x) := default_timer (env w) in
  latency_observe l (Z.max (t - start) 0) (set_env x w).

(** [timeit(func)]; [name] is [func.__name__].
<<
    with storage_request_latency.labels(...).time():
        storage_request_total_counter.labels(...).inc()
        try:
            return func(...)
        except Exception as e:
            storage_request_failed_counter.labels(...).inc()
            raise e
>> *)
Definition timeit {A} (name : string) (func : M E A) : M E A := fun w =>
  let l := (name, STORAGE_TYPE) in
  let '(start, w1) := timer_enter w in
  let w2 := total_inc l w1 in
  let '(r, w3) :=
    match func w2 with
    | (Return a, w') => (Return a, w')
    | (Raise e, w') => (Raise e, failed_inc l w')
    | (RaiseBase b, w') => (RaiseBase b, w')
    end in
  (r, timer_exit l start w3).

(** The handler every facade method has:
<<
    try: body
    except Exception as e:
        logger.exception(msg)
        raise e
>> *)
Definition try_log {A} (body : M E A) (msg : string) : M E A := fun w =>
  match body w with
  | (Return a, w') => (Return a, w')
  | (Raise e, w') => (Raise e, logger_exception msg e w')
  | (RaiseBase b, w') => (RaiseBase b, w')
  end.

End Instrumentation.

(** ** Provider identifiers and adapter constructors *)

(** The members of [StorageType] that [get_storage_factory] matches on. *)
Inductive StorageType :=
| S3 | OPENDAL | LOCAL | AZURE_BLOB | ALIYUN_OSS | GOOGLE_STORAGE
| TENCENT_COS | OCI_STORAGE | HUAWEI_OBS | BAIDU_OBS | VOLCENGINE_TOS | SUPBASE.

Definition storage_types : list StorageType :=
  [S3; OPENDAL; LOCAL; AZURE_BLOB; ALIYUN_OSS; GOOGLE_STORAGE;
   TENCENT_COS; OCI_STORAGE; HUAWEI_OBS; BAIDU_OBS; VOLCENGINE_TOS; SUPBASE].

(** What [get_storage_factory] returns: a callable without arguments,
    either an adapter class or one of the two lambdas. *)
Inductive StorageFactory :=
| AwsS3Storage
| OpenDALStorage_scheme   (* lambda: OpenDALStorage(dify_config.OPENDAL_SCHEME) *)
| OpenDALStorage_fs       (* lambda: OpenDALStorage(scheme="fs", root=dify_config.STORAGE_LOCAL_PATH) *)
| AzureBlobStorage
| AliyunOssStorage
| GoogleCloudStorage
| TencentCosStorage
| OracleOCIStorage
| HuaweiObsStorage
| BaiduObsStorage
| VolcengineTosStorage
| SupabaseStorage.

(** The case that names a member returns this callable. *)
Definition factory_of (t : StorageType) : StorageFactory :=
  match t with
  | S3 => AwsS3Storage
  | OPENDAL => OpenDALStorage_scheme
  | LOCAL => OpenDALStorage_fs
  | AZURE_BLOB => AzureBlobStorage
  | ALIYUN_OSS => AliyunOssStorage
  | GOOGLE_STORAGE => GoogleCloudStorage
  | TENCENT_COS => TencentCosStorage
  | OCI_STORAGE => OracleOCIStorage
  | HUAWEI_OBS => HuaweiObsStorage
  | BAIDU_OBS => BaiduObsStorage
  | VOLCENGINE_TOS => VolcengineTosStorage
  | SUPBASE => SupabaseStorage
  end.

Definition ValueError (msg : string) : PyException := mkExc "ValueError" msg.

(** ** The class [Storage] *)

Module Storage.
Section Methods.

Context {E : Type}.
Variable default_timer : E -> Z * E.
Variable STORAGE_TYPE : string.

(** [self.storage_runner] *)
Variable storage_runner : BaseStorage E.

Local Abbreviation timeit := (timeit default_timer STORAGE_TYPE).

(** [save] carries no [@timeit]; it returns [None]. *)
Definition save (filename : string) (data : bytes) : M E (Value E) :=
  try_log (bind (call_backend (bs_save storage_runner filename data))
                (fun _ => ret VNone))
          ("Failed to save file " +:+ filename).

Definition load_once (filename : string) : M E (Value E) :=
  timeit "load_once"
    (try_log (call_backend (bs_load_once storage_runner filename))
             ("Failed to load_once file " +:+ filename)).

Definition load_stream (filename : string) : M E (Value E) :=
  timeit "load_stream"
    (try_log (call_backend (bs_load_stream storage_runner filename))
             ("Failed to load_stream file " +:+ filename)).

Definition load (filename : string) (stream : bool) : M E (Value E) :=
  timeit "load"
    (try_log (if stream then load_stream filename else load_once filename)
             ("Failed to load file " +:+ filename)).

Definition download (filename target_filepath : string) : M E (Value E) :=
  timeit "download"
    (try_log (bind (call_backend
                      (bs_download storage_runner filename target_filepath))
                   (fun _ => ret VNone))
             ("Failed to download file " +:+ filename)).

Definition exists_ (filename : string) : M E (Value E) :=
  timeit "exists"
    (try_log (call_backend (bs_exists storage_runner filename))
             ("Failed to check file exists " +:+ filename)).

Definition delete (filename : string) : M E (Value E) :=
  timeit "delete"
    (try_log (call_backend (bs_delete storage_runner filename))
             ("Failed to delete file " +:+ filename)).

End Methods.

Section Factory.

(** Modelled from the spec: [extensions/storage/storage_type.py] is not
    among the sources. [StorageType] is a string enumeration (the
    configured identifier is a string "matching one of the fixed
    enumeration values"), so each member compares equal to its string
    value; the values themselves are a parameter. *)
Variable storage_type_value : StorageType -> string.

(** The [match] statement: value patterns are tried in order with [==]. *)
Fixpoint match_cases (cases : list StorageType) (storage_type : string)
  : option StorageType :=
  match cases with
  | [] => None
  | t :: rest =>
      if String.eqb storage_type (storage_type_value t) then Some t
      else match_cases rest storage_type
  end.

(** Each case imports the adapter's module and returns the class or the
    lambda; the imports are taken to succeed. The default case raises. *)
Definition get_storage_factory (storage_type : string)
  : Outcome StorageFactory :=
  match match_cases storage_types storage_type with
  | Some t => Return (factory_of t)
  | None => Raise (ValueError ("unsupported storage type " +:+ storage_type))
  end.

(** [init_app]: the factory is resolved first and then called once;
    [construct] stands for calling it inside the application context. *)
Definition init_app {R : Type} (STORAGE_TYPE : string)
    (construct : StorageFactory -> Outcome R) : Outcome R :=
  match get_storage_factory STORAGE_TYPE with
  | Return storage_factory => construct storage_factory
  | Raise e => Raise e
  | RaiseBase b => RaiseBase b
  end.

End Factory.

End Storage.

(** The error kind the specification calls [UnsupportedBackendType]: in
    the code a [ValueError] whose message names the rejected identifier. *)
Definition UnsupportedBackendType (storage_type : string) (e : PyException) : Prop :=
  e = ValueError ("unsupported storage type " +:+ storage_type).


(** ** Calls of the facade, named

    The facade has seven methods. To speak about all of them at once, a
    call is a method together with its arguments; [invoke] runs it. *)

Inductive Call :=
| CallSave (filename : string) (data : bytes)
| CallLoad (filename : string) (stream : bool)
| CallLoadOnce (filename : string)
| CallLoadStream (filename : string)
| CallDownload (filename target_filepath : string)
| CallExists (filename : string)
| CallDelete (filename : string).

(** [__name__] of the method. *)
Definition method_name (c : Call) : string :=
  match c with
  | CallSave _ _ => "save"
  | CallLoad _ _ => "load"
  | CallLoadOnce _ => "load_once"
  | CallLoadStream _ => "load_stream"
  | CallDownload _ _ => "download"
  | CallExists _ => "exists"
  | CallDelete _ => "delete"
  end.

(** The object key the call is about. *)
Definition call_key (c : Call) : string :=
  match c with
  | CallSave k _ | CallLoad k _ | CallLoadOnce k | CallLoadStream k
  | CallDownload k _ | CallExists k | CallDelete k => k
  end.

(** Whether the method carries [@timeit]. *)
Definition decorated (c : Call) : bool :=
  match c with
  | CallSave _ _ => false
  | _ => true
  end.

(** The message of the [logger.exception] call in the method's handler. *)
Definition failure_message (c : Call) : string :=
  match c with
  | CallSave k _ => "Failed to save file " +:+ k
  | CallLoad k _ => "Failed to load file " +:+ k
  | CallLoadOnce k => "Failed to load_once file " +:+ k
  | CallLoadStream k => "Failed to load_stream file " +:+ k
  | CallDownload k _ => "Failed to download file " +:+ k
  | CallExists k => "Failed to check file exists " +:+ k
  | CallDelete k => "Failed to delete file " +:+ k
  end.

(** [load] goes through the facade's own [load_once] or [load_stream]. *)
Definition delegate (c : Call) : option Call :=
  match c with
  | CallLoad k true => Some (CallLoadStream k)
  | CallLoad k false => Some (CallLoadOnce k)
  | _ => None
  end.

(** The method names under which a call is instrumented, outermost
    first: the method's own when it carries [@timeit], then that of the
    decorated method it goes through. *)
Definition instrumented (c : Call) : list string :=
  if decorated c then
    method_name c :: match delegate c with
                     | Some c' => [method_name c']
                     | None => []
                     end
  else [].

(** The records the handlers write when the adapter raises [e], in the
    order they are written: the inner method's handler runs first. *)
Definition failure_records (c : Call) (e : PyException) : list LogRecord :=
  match delegate c with
  | Some c' => [mkLog (failure_message c') e]
  | None => []
  end ++ [mkLog (failure_message c) e].

(** How often a label occurs in a list of labels. *)
Fixpoint occurrences (l : Label) (ls : list Label) : nat :=
  match ls with
  | [] => 0
  | l' :: rest => (if decide (l' = l) then 1 else 0) + occurrences l rest
  end%nat.

(** A message names an operation and a key when both occur in it, the key
    at its end. *)
Definition names_operation_and_key (op key msg : string) : Prop :=
  exists pre mid : string, msg = pre +:+ op +:+ mid +:+ key.

Section Dispatch.

Context {E : Type}.
Variable default_timer : E -> Z * E.
Variable STORAGE_TYPE : string.
Variable storage_runner : BaseStorage E.

Definition invoke (c : Call) : M E (Value E) :=
  match c with
  | CallSave k d => Storage.save storage_runner k d
  | CallLoad k s => Storage.load default_timer STORAGE_TYPE storage_runner k s
  | CallLoadOnce k => Storage.load_once default_timer STORAGE_TYPE storage_runner k
  | CallLoadStream k => Storage.load_stream default_timer STORAGE_TYPE storage_runner k
  | CallDownload k p => Storage.download default_timer STORAGE_TYPE storage_runner k p
  | CallExists k => Storage.exists_ default_timer STORAGE_TYPE storage_runner k
  | CallDelete k => Storage.delete default_timer STORAGE_TYPE storage_runner k
  end.

(** The adapter method a facade call ends up calling. *)
Definition backend_call (c : Call) : E -> Outcome (Value E) * E :=
  match c with
  | CallSave k d => bs_save storage_runner k d
  | CallLoad k true | CallLoadStream k => bs_load_stream storage_runner k
  | CallLoad k false | CallLoadOnce k => bs_load_once storage_runner k
  | CallDownload k p => bs_download storage_runner k p
  | CallExists k => bs_exists storage_runner k
  | CallDelete k => bs_delete storage_runner k
  end.

(** How many [Timer.__enter__] run before the adapter is reached. *)
Definition timers_entered (c : Call) : nat :=
  match c with
  | CallSave _ _ => 0
  | CallLoad _ _ => 2
  | _ => 1
  end.

(** The environment in which the adapter method starts. *)
Definition env_at_call (c : Call) (x : E) : E :=
  Nat.iter (timers_entered c) (fun y => snd (default_timer y)) x.

(** The metric series of a call and how often a label is among them. *)
Definition series (c : Call) : list Label :=
  map (fun name => (name, STORAGE_TYPE)) (instrumented c).

Definition hits (c : Call) (l : Label) : nat := occurrences l (series c).

(** The outcome of the adapter method, as the facade call sees it. *)
Definition backend_outcome (c : Call) (w : World E) : Outcome (Value E) :=
  fst (backend_call c (env_at_call c (env w))).

(** What the method makes of the adapter's outcome: [save] and
    [download] drop the returned value and return [None]. *)
Definition facade_result (c : Call) (r : Outcome (Value E))
  : Outcome (Value E) :=
  match c, r with
  | (CallSave _ _ | CallDownload _ _), Return _ => Return VNone
  | _, _ => r
  end.

(** The caller of [load_stream] iterating the generator it got: one
    [next(g)]. Nothing of the facade is on the call stack. *)
Definition gen_next (g : Generator E) : World E -> GenStep (Generator E) * World E :=
  fun w => match g with
           | Gen next => let '(s, x) := next (env w) in (s, set_env x w)
           end.

(** [for chunk in g], at most [n] resumptions: the chunks received and
    how the loop ended ([None] when it was left before the end). *)
Fixpoint consume (n : nat) (g : Generator E) (w : World E)
  : list bytes * option (Outcome unit) * World E :=
  match n with
  | O => ([], None, w)
  | S n' =>
      match gen_next g w with
      | (Yield chunk rest, w') =>
          let '(cs, r, w'') := consume n' rest w' in (chunk :: cs, r, w'')
      | (StopIteration, w') => ([], Some (Return tt), w')
      | (GenRaise e, w') => ([], Some (Raise e), w')
      end
  end.

End Dispatch.

(** ** What the facade expects of an adapter *)

(** Modelled from the spec: the adapters under [extensions/storage/] are
    not among the sources. The specification requires of each of them
    that [save(k, b)] followed by [load_once(k)] returns bytes equal to
    [b]; reading the clock, which the instrumentation does in between,
    is no operation on [k]. *)
Record RoundTripContract {E : Type} (default_timer : E -> Z * E)
    (runner : BaseStorage E) : Prop := {
  contract_round_trip :
    forall (k : string) (b : bytes) (x x' : E) (v : Value E),
      bs_save runner k b x = (Return v, x') ->
      fst (bs_load_once runner k x') = Return (VBytes b);
  contract_clock :
    forall (k : string) (x : E),
      fst (bs_load_once runner k (snd (default_timer x))) =
      fst (bs_load_once runner k x)
}.

(** ** Concrete environments and adapters, used to run the model *)

(** An environment made of a clock and an object store. *)
Record MemEnv := mkMemEnv { clock : Z; objects : gmap string bytes }.

(** A clock that advances by one tick at every reading. *)
Definition ticking_timer (x : MemEnv) : Z * MemEnv :=
  (clock x, mkMemEnv (clock x + 1) (objects x)).

Definition FileNotFoundError (k : string) : PyException :=
  mkExc "FileNotFoundError" ("File not found: " +:+ k).

(** A generator over a list of chunks already in memory. *)
Fixpoint chunks_generator {E : Type} (chunks : list bytes) : Generator E :=
  match chunks with
  | [] => Gen (fun x => (StopIteration, x))
  | c :: rest => Gen (fun x => (Yield c (chunks_generator rest), x))
  end.

(** A generator that yields one chunk and then fails. *)
Definition broken_generator {E : Type} (c : bytes) (e : PyException) : Generator E :=
  Gen (fun x => (Yield c (Gen (fun y => (GenRaise e, y))), x)).

(** Modelled from the spec: the adapters under [extensions/storage/] are
    not among the sources. This one keeps the objects in memory and
    follows the backend capability contract: [save] stores the bytes,
    [load_once] returns them, [load_stream] yields them as one chunk,
    [exists] tells whether the key is stored, [delete] removes it, and a
    missing key is an error for the three reading methods. *)
Definition MemoryStorage : BaseStorage MemEnv := {|
  bs_save k d x := (Return VNone, mkMemEnv (clock x + 5) (<[k := d]> (objects x)));
  bs_load_once k x :=
    match objects x !! k with
    | Some b => (Return (VBytes b), mkMemEnv (clock x + 3) (objects x))
    | None => (Raise (FileNotFoundError k), x)
    end;
  bs_load_stream k x :=
    match objects x !! k with
    | Some b => (Return (VGen (chunks_generator [b])), x)
    | None => (Raise (FileNotFoundError k), x)
    end;
  bs_download k p x :=
    match objects x !! k with
    | Some b => (Return VNone, mkMemEnv (clock x + 3) (objects x))
    | None => (Raise (FileNotFoundError k), x)
    end;
  bs_exists k x := (Return (VBool (bool_decide (is_Some (objects x !! k)))), x);
  bs_delete k x := (Return VNone, mkMemEnv (clock x + 1) (delete k (objects x)))
|}.

(** An adapter whose every method raises the same error. *)
Definition FailingStorage (e : PyException) : BaseStorage MemEnv := {|
  bs_save _ _ x := (Raise e, x);
  bs_load_once _ x := (Raise e, x);
  bs_load_stream _ x := (Raise e, x);
  bs_download _ _ x := (Raise e, x);
  bs_exists _ x := (Raise e, x);
  bs_delete _ x := (Raise e, x)
|}.

(** An adapter whose [load_stream] hands out a generator that breaks
    while it is iterated. *)
Definition BrokenStreamStorage (c : bytes) (e : PyException) : BaseStorage MemEnv := {|
  bs_save _ _ x := (Return VNone, x);
  bs_load_once _ x := (Return (VBytes c), x);
  bs_load_stream _ x := (Return (VGen (broken_generator c e)), x);
  bs_download _ _ x := (Return VNone, x);
  bs_exists _ x := (Return (VBool true), x);
  bs_delete _ x := (Return VNone, x)
|}.

Definition empty_world : World MemEnv := mkWorld ∅ ∅ ∅ [] (mkMemEnv 0 ∅).

Definition ConnectionError : PyException := mkExc "ConnectionError" "connection reset".

(** The identifiers of the upstream enumeration, as one possible
    instance of the parameter. *)
Definition upstream_value (t : StorageType) : string :=
  match t with
  | S3 => "s3"
  | OPENDAL => "opendal"
  | LOCAL => "local"
  | AZURE_BLOB => "azure-blob"
  | ALIYUN_OSS => "aliyun-oss"
  | GOOGLE_STORAGE => "google-storage"
  | TENCENT_COS => "tencent-cos"
  | OCI_STORAGE => "oci-storage"
  | HUAWEI_OBS => "huawei-obs"
  | BAIDU_OBS => "baidu-obs"
  | VOLCENGINE_TOS => "volcengine-tos"
  | SUPBASE => "supabase"
  end.

(** ** The facade object around [init_app] *)

Definition AttributeError (msg : string) : PyException := mkExc "AttributeError" msg.

(** [storage = Storage()] has no attribute [storage_runner] until
    [init_app] assigns it. Every method evaluates [self.storage_runner]
    as the first thing inside its [try]; on the fresh object that raises
    [AttributeError] there, with the environment untouched. As an
    adapter record: every method raises at once. *)
Definition unset_runner {E : Type} : BaseStorage E :=
  let e := AttributeError "'Storage' object has no attribute 'storage_runner'" in
  {| bs_save _ _ x := (Raise e, x);
     bs_load_once _ x := (Raise e, x);
     bs_load_stream _ x := (Raise e, x);
     bs_download _ _ x := (Raise e, x);
     bs_exists _ x := (Raise e, x);
     bs_delete _ x := (Raise e, x) |}.

(** What [self.storage_runner] gives, the attribute being set or not. *)
Definition runner_of {E : Type} (storage : option (BaseStorage E)) : BaseStorage E :=
  match storage with
  | Some runner => runner
  | None => unset_runner
  end.

(** The module's [init_app(app)]: [storage.init_app(app)] on the global
    object. The attribute is assigned only when the factory was resolved
    and its call returned. *)
Definition init_app {R : Type} (storage_type_value : StorageType -> string)
    (STORAGE_TYPE : string) (construct : StorageFactory -> Outcome R)
    (storage : option R) : Outcome unit * option R :=
  match Storage.init_app storage_type_value STORAGE_TYPE construct with
  | Return runner => (Return tt, Some runner)
  | Raise e => (Raise e, storage)
  | RaiseBase b => (RaiseBase b, storage)
  end.

(** ** Sequences of facade calls *)

Section Runs.

Context {E : Type}.
Variable default_timer : E -> Z * E.
Variable STORAGE_TYPE : string.
Variable storage_runner : BaseStorage E.

(** The callers' calls one after the other, whatever each of them
    returned or raised. *)
Fixpoint run (calls : list Call) (w : World E) : World E :=
  match calls with
  | [] => w
  | c :: rest => run rest (snd (invoke default_timer STORAGE_TYPE storage_runner c w))
  end.

(** How many of the calls are instrumented under a label. *)
Definition instrumented_calls (calls : list Call) (l : Label) : nat :=
  sum_list (map (fun c => hits STORAGE_TYPE c l) calls).

End Runs.

(** An adapter whose every method ends the same way [r] and takes a
    thousand ticks of the clock. *)
Definition ConstantStorage (r : Outcome (Value MemEnv)) : BaseStorage MemEnv :=
  let called x := mkMemEnv (clock x + 1000) (objects x) in
  {| bs_save _ _ x := (r, called x);
     bs_load_once _ x := (r, called x);
     bs_load_stream _ x := (r, called x);
     bs_download _ _ x := (r, called x);
     bs_exists _ x := (r, called x);
     bs_delete _ x := (r, called x) |}.

(** ** [api/extensions/ext_app_metrics.py]

    The three views that [init_app] registers, its [after_request] hook
    and the metrics of the module. What the views read from the process
    (pid, configuration, the threads, the connection pool of the
    database engine) is an explicit argument. *)

(** Values that go into a JSON body. *)
Inductive Json :=
| JNull
| JBool (b : bool)
| JInt (z : Z)
| JFloat (mantissa exponent : Z)   (* mantissa * 10 ^ exponent *)
| JStr (s : string)
| JList (items : list Json)
| JDict (items : list (string * Json)).

Definition KeyError (key : string) : PyException := mkExc "KeyError" key.

(** [d[key]] on a dict given by its items. *)
Fixpoint dict_get (key : string) (items : list (string * Json)) : option Json :=
  match items with
  | [] => None
  | (k, v) :: rest => if String.eqb k key then Some v else dict_get key rest
  end.

Definition subscript (items : list (string * Json)) (key : string) : Outcome Json :=
  match dict_get key items with
  | Some v => Return v
  | None => Raise (KeyError key)
  end.

(** A response: status, content type, the headers added to it, body. *)
Record Response := mkResponse {
  status : Z;
  content_type : string;
  headers : list (string * string);
  body : Json
}.

(** What Flask makes of a view that returns a dict. *)
Definition dict_response (items : list (string * Json)) : Response :=
  mkResponse 200 "application/json" [] (JDict items).

(** [Headers.add(key, value)]: one more entry at the end; entries of the
    same name stay. *)
Definition headers_add (key value : string) (r : Response) : Response :=
  mkResponse (status r) (content_type r) (headers r ++ [(key, value)]) (body r).

(** A [threading.Thread] as the view reads it. *)
Record Thread := mkThread {
  thread_name : string;
  thread_ident : option Z;
  thread_is_alive : bool
}.

(** [engine.pool] as the view reads it. *)
Record Pool := mkPool {
  pool_size : Z;
  pool_checkedin : Z;
  pool_checkedout : Z;
  pool_overflow : Z;
  pool_timeout : Json;
  pool_recycle : Z
}.

(** The process as the views see it. *)
Record Process := mkProcess {
  getpid : Z;
  CURRENT_VERSION : string;
  DEPLOY_ENV : string;
  active_count : nat;
  enumerate : list Thread;
  engine_pool : Pool
}.

(** The counters and gauges the module declares. A gauge holds the number
    it was last set to. *)
Record AppMetrics := mkAppMetrics {
  health_check_total_counter : nat;
  redis_checked_counter : nat;
  db_checked_counter : nat;
  storage_checked_counter : nat;
  redis_used_memory_bytes : Json;
  redis_total_memory_bytes : Json;
  db_pool_total_size : Json;
  db_pool_checkout_size : Json;
  db_pool_overflow_size : Json
}.

(** [Gauge.set(value)] on each of the three pool gauges. *)
Definition set_db_pool_total_size (z : Json) (m : AppMetrics) : AppMetrics :=
  mkAppMetrics (health_check_total_counter m) (redis_checked_counter m)
    (db_checked_counter m) (storage_checked_counter m)
    (redis_used_memory_bytes m) (redis_total_memory_bytes m)
    z (db_pool_checkout_size m) (db_pool_overflow_size m).

Definition set_db_pool_checkout_size (z : Json) (m : AppMetrics) : AppMetrics :=
  mkAppMetrics (health_check_total_counter m) (redis_checked_counter m)
    (db_checked_counter m) (storage_checked_counter m)
    (redis_used_memory_bytes m) (redis_total_memory_bytes m)
    (db_pool_total_size m) z (db_pool_overflow_size m).

Definition set_db_pool_overflow_size (z : Json) (m : AppMetrics) : AppMetrics :=
  mkAppMetrics (health_check_total_counter m) (redis_checked_counter m)
    (db_checked_counter m) (storage_checked_counter m)
    (redis_used_memory_bytes m) (redis_total_memory_bytes m)
    (db_pool_total_size m) (db_pool_checkout_size m) z.

(** [after_request]: the two version headers are added to the response. *)
Definition after_request (p : Process) (response : Response) : Response :=
  headers_add "X-Env" (DEPLOY_ENV p)
    (headers_add "X-Version" (CURRENT_VERSION p) response).

(** [health]: the body is the [json.dumps] of this dict. *)
Definition health (p : Process) : Response :=
  mkResponse 200 "application/json" []
    (JDict [("pid", JInt (getpid p)); ("status", JStr "ok");
            ("version", JStr (CURRENT_VERSION p))]).

(** The dict that [threads] appends for one thread. *)
Definition thread_entry (thread : Thread) : Json :=
  JDict [("name", JStr (thread_name thread));
         ("id", match thread_ident thread with
                | Some i => JInt i
                | None => JNull
                end);
         ("is_alive", JBool (thread_is_alive thread))].

(** The [for] loop of [threads]: [thread_list.append(...)] per thread. *)
Fixpoint threads_loop (threads : list Thread) (thread_list : list Json) : list Json :=
  match threads with
  | [] => thread_list
  | thread :: rest => threads_loop rest (thread_list ++ [thread_entry thread])
  end.

Definition threads (p : Process) : Response :=
  let num_threads := active_count p in
  let thread_list := threads_loop (enumerate p) [] in
  dict_response [("pid", JInt (getpid p));
                 ("thread_num", JInt (Z.of_nat num_threads));
                 ("threads", JList thread_list)].

(** The dict [stat] of [pool_stat]. *)
Definition pool_stat_dict (p : Process) : list (string * Json) :=
  let pool := engine_pool p in
  [("pid", JInt (getpid p));
   ("pool_size", JInt (pool_size pool));
   ("checked_in_connections", JInt (pool_checkedin pool));
   ("checked_out_connections", JInt (pool_checkedout pool));
   ("overflow_connections", JInt (pool_overflow pool));
   ("connection_timeout", pool_timeout pool);
   ("recycle_time", JInt (pool_recycle pool))].

(** One [gauge.set(stat[key])]; the values under the keys used are
    numbers. *)
Definition set_gauge_from (stat : list (string * Json)) (key : string)
    (set : Json -> AppMetrics -> AppMetrics) (m : AppMetrics) : Outcome unit * AppMetrics :=
  match subscript stat key with
  | Return v => (Return tt, set v m)
  | Raise e => (Raise e, m)
  | RaiseBase b => (RaiseBase b, m)
  end.

(** [pool_stat]: the dict is built, the three gauges are set from it one
    after the other, and the dict is returned. *)
Definition pool_stat (p : Process) (m : AppMetrics) : Outcome Response * AppMetrics :=
  let stat := pool_stat_dict p in
  match set_gauge_from stat "pool_size" set_db_pool_total_size m with
  | (Return _, m1) =>
      match set_gauge_from stat "checked_out_connections" set_db_pool_checkout_size m1 with
      | (Return _, m2) =>
          match set_gauge_from stat "overflow_connections" set_db_pool_overflow_size m2 with
          | (Return _, m3) => (Return (dict_response stat), m3)
          | (Raise e, m3) => (Raise e, m3)
          | (RaiseBase b, m3) => (RaiseBase b, m3)
          end
      | (Raise e, m2) => (Raise e, m2)
      | (RaiseBase b, m2) => (RaiseBase b, m2)
      end
  | (Raise e, m1) => (Raise e, m1)
  | (RaiseBase b, m1) => (RaiseBase b, m1)
  end.

(** The routes that [init_app] registers on the Flask application. *)
Inductive Route := HealthRoute | ThreadsRoute | DbPoolStatRoute.

Definition route_path (r : Route) : string :=
  match r with
  | HealthRoute => "/health"
  | ThreadsRoute => "/threads"
  | DbPoolStatRoute => "/db-pool-stat"
  end.

(** A request to one of the routes: the view runs, and the response it
    returns goes through [after_request]. What Flask does with a view
    that raised is not part of the module. *)
Definition serve (route : Route) (p : Process) (m : AppMetrics)
  : Outcome Response * AppMetrics :=
  let '(r, m') :=
    match route with
    | HealthRoute => (Return (health p), m)
    | ThreadsRoute => (Return (threads p), m)
    | DbPoolStatRoute => pool_stat p m
    end in
  match r with
  | Return response => (Return (after_request p response), m')
  | Raise e => (Raise e, m')
  | RaiseBase b => (RaiseBase b, m')
  end.

(** A process to run the views on. *)
Definition sample_process : Process :=
  mkProcess 4242 "1.0.0" "PRODUCTION" 2
    [mkThread "MainThread" (Some 1) true; mkThread "worker-1" (Some 7) true]
    (mkPool 30 3 2 (-28) (JFloat 30 0) 3600).

Definition zero_metrics : AppMetrics :=
  mkAppMetrics 0 0 0 0 (JInt 0) (JInt 0) (JInt 0) (JInt 0) (JInt 0).

(** A few calls to run one after the other. *)
Definition sample_calls : list Call :=
  [CallSave "a.txt" [Byte.x00]; CallLoad "a.txt" false; CallExists "b.txt";
   CallLoadOnce "missing"; CallLoad "a.txt" true].

(** * Properties *)

(** ** Counters and histograms *)

Lemma counter_value_inc (l l' : Label) (c : gmap Label nat) :
  counter_value (counter_inc l c) l' =
  (counter_value c l' + if decide (l = l') then 1 else 0)%nat.
Proof.
  unfold counter_inc, counter_value at 1.
  rewrite lookup_insert. case_decide as Hl.
  - subst l'. simpl. lia.
  - simpl. fold (counter_value c l'). lia.
Qed.

Lemma observations_observe (l l' : Label) (x : Z) (h : gmap Label (list Z)) :
  observations (histogram_observe l x h) l' =
  observations h l' ++ (if decide (l = l') then [x] else []).
Proof.
  unfold histogram_observe, observations at 1.
  rewrite lookup_insert. case_decide as Hl.
  - subst l'. reflexivity.
  - simpl. fold (observations h l'). by rewrite app_nil_r.
Qed.

(** ** What one facade call does to each part of the state *)

Section FacadeProperties.

Context {E : Type}.
Variable default_timer : E -> Z * E.
Variable STORAGE_TYPE : string.
Variable storage_runner : BaseStorage E.

Local Abbreviation invoke := (invoke default_timer STORAGE_TYPE storage_runner).
Local Abbreviation backend_outcome := (backend_outcome default_timer storage_runner).
Local Abbreviation hits := (hits STORAGE_TYPE).
Local Abbreviation timeit := (timeit default_timer STORAGE_TYPE).

Ltac unfold_facade :=
  unfold invoke, Storage.save, Storage.load, Storage.load_once,
    Storage.load_stream, Storage.download, Storage.exists_, Storage.delete,
    timeit, try_log, call_backend, bind, ret, timer_enter, timer_exit,
    total_inc, failed_inc, latency_observe, logger_exception, set_env,
    backend_outcome, backend_call, env_at_call, facade_result,
    timers_entered;
  simpl.

Ltac simple_env x :=
  lazymatch x with
  | env ?w => is_var w
  | _ => is_var x
  end.

Ltac run_calls :=
  repeat match goal with
    | |- context [default_timer ?x] =>
        simple_env x; destruct (default_timer x) as [? ?] eqn:?; simpl
    | |- context [bs_save ?r ?k ?d ?x] =>
        simple_env x; destruct (bs_save r k d x) as [[?|?|?] ?] eqn:?; simpl
    | |- context [bs_load_once ?r ?k ?x] =>
        simple_env x; destruct (bs_load_once r k x) as [[?|?|?] ?] eqn:?; simpl
    | |- context [bs_load_stream ?r ?k ?x] =>
        simple_env x; destruct (bs_load_stream r k x) as [[?|?|?] ?] eqn:?; simpl
    | |- context [bs_download ?r ?k ?p ?x] =>
        simple_env x; destruct (bs_download r k p x) as [[?|?|?] ?] eqn:?; simpl
    | |- context [bs_exists ?r ?k ?x] =>
        simple_env x; destruct (bs_exists r k x) as [[?|?|?] ?] eqn:?; simpl
    | |- context [bs_delete ?r ?k ?x] =>
        simple_env x; destruct (bs_delete r k x) as [[?|?|?] ?] eqn:?; simpl
    end.

Ltac by_cases c := destruct c as [k d|k [|]|k|k|k p|k|k]; unfold_facade; run_calls.

(** The caller gets what the adapter produced. *)
Lemma invoke_outcome (c : Call) (w : World E) :
  fst (invoke c w) = facade_result c (backend_outcome c w).
Proof. by_cases c; reflexivity. Qed.

(** The log grows by the failure records, and only when the adapter
    raised an [Exception]. *)
Lemma invoke_logger (c : Call) (w : World E) :
  logger (snd (invoke c w)) =
  logger w ++ match backend_outcome c w with
              | Raise e => failure_records c e
              | _ => []
              end.
Proof.
  by_cases c; rewrite ?app_nil_r; try reflexivity;
    unfold failure_records; simpl; by rewrite <- app_assoc.
Qed.

(** Every series of the call gets one increment of the request counter. *)
Lemma invoke_total (c : Call) (w : World E) (l : Label) :
  counter_value (storage_request_total_counter (snd (invoke c w))) l =
  (counter_value (storage_request_total_counter w) l + hits c l)%nat.
Proof.
  by_cases c; unfold hits, series; simpl;
    rewrite ?counter_value_inc; lia.
Qed.

(** The failure counter moves only when the adapter raised an
    [Exception], and then once for every series of the call. *)
Lemma invoke_failed (c : Call) (w : World E) (l : Label) :
  counter_value (storage_request_failed_counter (snd (invoke c w))) l =
  (counter_value (storage_request_failed_counter w) l +
   match backend_outcome c w with
   | Raise _ => hits c l
   | _ => 0
   end)%nat.
Proof.
  by_cases c; unfold hits, series; simpl;
    rewrite ?counter_value_inc; lia.
Qed.

Lemma invoke_failed_same (c : Call) (w : World E) :
  (forall e, backend_outcome c w <> Raise e) ->
  storage_request_failed_counter (snd (invoke c w)) =
  storage_request_failed_counter w.
Proof.
  by_cases c; intros Hne; try reflexivity; exfalso; eapply Hne; reflexivity.
Qed.

(** Every series of the call gets one observation, never negative. *)
Lemma invoke_latency (c : Call) (w : World E) (l : Label) :
  exists ds : list Z,
    observations (storage_request_latency (snd (invoke c w))) l =
    observations (storage_request_latency w) l ++ ds /\
    length ds = hits c l /\
    Forall (fun d => 0 <= d) ds.
Proof.
  by_cases c; unfold hits, series; simpl;
    rewrite ?observations_observe, <- ?app_assoc;
    (eexists; split; [first [reflexivity | symmetry; apply app_nil_r]|]);
    repeat case_decide; simpl; (split; [reflexivity|]);
    repeat constructor; lia.
Qed.

Lemma facade_result_raise (c : Call) (e : PyException) :
  facade_result (E := E) c (Raise e) = Raise e.
Proof. by destruct c. Qed.

Lemma facade_result_return (c : Call) (r : Outcome (Value E)) (v : Value E) :
  facade_result c r = Return v -> exists v', r = Return v'.
Proof. destruct c, r; simpl; intros H; try discriminate; eauto. Qed.

Lemma hits_own_label (c : Call) :
  hits c (method_name c, STORAGE_TYPE) = if decorated c then 1%nat else 0%nat.
Proof.
  destruct c as [k d|k [|]|k|k|k p|k|k]; unfold hits, series; simpl;
    repeat case_decide; simpl; first [reflexivity | congruence].
Qed.

Lemma failure_message_names (c : Call) :
  names_operation_and_key (method_name c) (call_key c) (failure_message c).
Proof.
  destruct c; simpl;
    first [ by exists "Failed to ", " file "
          | by exists "Failed to check file ", " " ].
Qed.

(** Iterating a generator is backend code running for the caller: the
    metrics and the log stay as they are. *)
Lemma consume_frame (n : nat) (g : Generator E) (w : World E) :
  let w' := snd (consume n g w) in
  storage_request_total_counter w' = storage_request_total_counter w /\
  storage_request_failed_counter w' = storage_request_failed_counter w /\
  storage_request_latency w' = storage_request_latency w /\
  logger w' = logger w.
Proof.
  revert g w. induction n as [|n IH]; intros g w; simpl; [done|].
  destruct g as [next]. simpl.
  destruct (next (env w)) as [[chunk rest| |e] x] eqn:Hnext; simpl; [|done..].
  specialize (IH rest (set_env x w)).
  destruct (consume n rest (set_env x w)) as [[cs r] w'']. simpl in *. exact IH.
Qed.

(** ** The claims about the facade *)

(** C1, at [save]: the method carries no [@timeit], so one invocation
    leaves the request counter, the failure counter and the latency
    histogram exactly as they were, whether the adapter returns or
    raises: no increment and no observation is made for [save]. *)
Theorem save_records_no_metrics (k : string) (d : bytes) (w : World E) :
  let w' := snd (Storage.save storage_runner k d w) in
  storage_request_total_counter w' = storage_request_total_counter w /\
  storage_request_failed_counter w' = storage_request_failed_counter w /\
  storage_request_latency w' = storage_request_latency w.
Proof.
  unfold Storage.save, try_log, call_backend, bind, ret. simpl.
  destruct (bs_save storage_runner k d (env w)) as [[v|e|b] x]; simpl; done.
Qed.

(** What C1 states does hold for the methods that carry [@timeit]: one
    increment of the request counter and one observation under the
    method's own label, and one increment of the failure counter when
    the adapter raises an exception. *)
Lemma decorated_call_counts_once (c : Call) (w : World E) :
  decorated c = true ->
  let l := (method_name c, STORAGE_TYPE) in
  let w' := snd (invoke c w) in
  counter_value (storage_request_total_counter w') l =
    S (counter_value (storage_request_total_counter w) l) /\
  (exists d, 0 <= d /\
     observations (storage_request_latency w') l =
     observations (storage_request_latency w) l ++ [d]) /\
  (forall e, backend_outcome c w = Raise e ->
     counter_value (storage_request_failed_counter w') l =
     S (counter_value (storage_request_failed_counter w) l)).
Proof.
  intros Hdec l w'. subst l w'.
  pose proof (hits_own_label c) as Hh. rewrite Hdec in Hh.
  split; [|split].
  - rewrite invoke_total, Hh. lia.
  - destruct (invoke_latency c w (method_name c, STORAGE_TYPE))
      as (ds & Hobs & Hlen & Hpos).
    rewrite Hh in Hlen. destruct ds as [|d [|? ?]]; try discriminate.
    exists d. split; [by inversion Hpos | exact Hobs].
  - intros e He. rewrite invoke_failed, He, Hh. lia.
Qed.

(** C2: when the adapter method raises an exception [e], the facade
    call raises that same [e] (same type, same message), for each of
    the seven methods; by then the handlers have logged it and every
    series of the call has its failure increment. *)
Theorem backend_exception_propagates (c : Call) (w : World E) (e : PyException) :
  backend_outcome c w = Raise e ->
  fst (invoke c w) = Raise e /\
  logger (snd (invoke c w)) = logger w ++ failure_records c e /\
  forall l, counter_value (storage_request_failed_counter (snd (invoke c w))) l =
            (counter_value (storage_request_failed_counter w) l + hits c l)%nat.
Proof.
  intros He. split; [|split].
  - by rewrite invoke_outcome, He, facade_result_raise.
  - by rewrite invoke_logger, He.
  - intros l. by rewrite invoke_failed, He.
Qed.

(** C5: [load(key, stream=False)] ends exactly as the adapter's
    [load_once(key)] does and returns its value; [load(key,
    stream=True)] ends exactly as the adapter's [load_stream(key)] does
    and returns its generator. The adapter runs in the environment left
    by the two timers that were started before it. *)
Theorem load_returns_backend_result (k : string) (w : World E) :
  let x := snd (default_timer (snd (default_timer (env w)))) in
  fst (Storage.load default_timer STORAGE_TYPE storage_runner k false w) =
    fst (bs_load_once storage_runner k x) /\
  fst (Storage.load default_timer STORAGE_TYPE storage_runner k true w) =
    fst (bs_load_stream storage_runner k x).
Proof.
  split.
  - exact (invoke_outcome (CallLoad k false) w).
  - exact (invoke_outcome (CallLoad k true) w).
Qed.

(** C7: a facade call that returns leaves the failure counter as it
    was, under the label of the operation and under every other. *)
Theorem success_keeps_failure_counter (c : Call) (w : World E) (v : Value E) :
  fst (invoke c w) = Return v ->
  storage_request_failed_counter (snd (invoke c w)) =
    storage_request_failed_counter w /\
  counter_value (storage_request_failed_counter (snd (invoke c w)))
                (method_name c, STORAGE_TYPE) =
    counter_value (storage_request_failed_counter w) (method_name c, STORAGE_TYPE).
Proof.
  intros Hret. rewrite invoke_outcome in Hret.
  apply facade_result_return in Hret as [v' Hv'].
  assert (storage_request_failed_counter (snd (invoke c w)) =
          storage_request_failed_counter w) as Heq.
  { apply invoke_failed_same. intros e He. congruence. }
  split; [exact Heq | by rewrite Heq].
Qed.

(** C8: records are appended to the log if and only if the adapter
    method raises an exception; they are then the failure records of
    the call, the method's own among them, whose message names the
    operation and the key; a call that returns writes nothing. *)
Theorem log_written_iff_backend_raises (c : Call) (w : World E) :
  let w' := snd (invoke c w) in
  ((exists e, backend_outcome c w = Raise e) <->
   (exists r rs, logger w' = logger w ++ r :: rs)) /\
  (forall e, backend_outcome c w = Raise e ->
     logger w' = logger w ++ failure_records c e /\
     mkLog (failure_message c) e ∈ failure_records c e /\
     names_operation_and_key (method_name c) (call_key c) (failure_message c)) /\
  (forall v, fst (invoke c w) = Return v -> logger w' = logger w).
Proof.
  simpl. split; [|split].
  - split.
    + intros [e He]. rewrite invoke_logger, He. unfold failure_records.
      destruct (delegate c); simpl; eauto.
    + intros (r & rs & Hlog). rewrite invoke_logger in Hlog.
      apply app_inv_head in Hlog.
      destruct (backend_outcome c w) as [v|e|b]; [discriminate|eauto|discriminate].
  - intros e He. split; [by rewrite invoke_logger, He|]. split.
    + unfold failure_records. set_solver.
    + apply failure_message_names.
  - intros v Hret. rewrite invoke_outcome in Hret.
    apply facade_result_return in Hret as [v' Hv'].
    by rewrite invoke_logger, Hv', app_nil_r.
Qed.

(** C4: for a wrapped function that does not itself write to the series
    [(name, provider)], one call of [timeit name func] adds exactly one
    observation to that series of the histogram, and the observation is
    not negative, however the function ends; the call ends as the
    function does; when the function raises an exception the failure
    counter of the series has been incremented once when the exception
    reaches the caller, and otherwise it is unchanged. *)
Theorem timeit_observes_once_and_counts_failure
    {A : Type} (name : string) (func : M E A) (w : World E) :
  let l := (name, STORAGE_TYPE) in
  (forall w0, observations (storage_request_latency (snd (func w0))) l =
              observations (storage_request_latency w0) l) ->
  (forall w0, counter_value (storage_request_failed_counter (snd (func w0))) l =
              counter_value (storage_request_failed_counter w0) l) ->
  let r := fst (timeit name func w) in
  let w' := snd (timeit name func w) in
  (exists d, 0 <= d /\
     observations (storage_request_latency w') l =
     observations (storage_request_latency w) l ++ [d]) /\
  r = fst (func (total_inc l (snd (timer_enter default_timer w)))) /\
  (forall e, r = Raise e ->
     counter_value (storage_request_failed_counter w') l =
     S (counter_value (storage_request_failed_counter w) l)) /\
  ((forall e, r <> Raise e) ->
     counter_value (storage_request_failed_counter w') l =
     counter_value (storage_request_failed_counter w) l).
Proof.
  intros l Hlat Hfail r w'. subst r w'.
  unfold timeit, timer_enter. fold l.
  destruct (default_timer (env w)) as [start x1] eqn:Hstart. simpl.
  set (w2 := total_inc l (set_env x1 w)).
  specialize (Hlat w2). specialize (Hfail w2).
  destruct (func w2) as [[a|e|b] w3] eqn:Hfunc; simpl in *;
    unfold timer_exit;
    match goal with
    | |- context [default_timer ?x] =>
        destruct (default_timer x) as [stop x3] eqn:Hstop
    end; simpl.
  all: rewrite observations_observe, decide_True by reflexivity.
  all: rewrite ?counter_value_inc, ?decide_True by reflexivity.
  all: rewrite Hlat, Hfail.
  all: split; [exists (Z.max (stop - start) 0); split; [lia | reflexivity]|].
  all: split; [reflexivity|].
  all: split; [intros e' He'; try discriminate; lia|].
  all: intros Hne; try reflexivity.
  exfalso. by apply (Hne e).
Qed.

(** C9: one call of [load] increments the request counter once under
    ["load"] and once under the label of the method it goes through
    (["load_once"] without [stream], ["load_stream"] with it), makes one
    observation under each of the two labels, and touches no other
    series. *)
Theorem load_is_instrumented_twice (k : string) (stream : bool) (w : World E) :
  let inner := if stream then "load_stream" else "load_once" in
  let w' := snd (Storage.load default_timer STORAGE_TYPE storage_runner k stream w) in
  let total := storage_request_total_counter in
  let latency := storage_request_latency in
  counter_value (total w') ("load", STORAGE_TYPE) =
    S (counter_value (total w) ("load", STORAGE_TYPE)) /\
  counter_value (total w') (inner, STORAGE_TYPE) =
    S (counter_value (total w) (inner, STORAGE_TYPE)) /\
  (exists d, 0 <= d /\
     observations (latency w') ("load", STORAGE_TYPE) =
     observations (latency w) ("load", STORAGE_TYPE) ++ [d]) /\
  (exists d, 0 <= d /\
     observations (latency w') (inner, STORAGE_TYPE) =
     observations (latency w) (inner, STORAGE_TYPE) ++ [d]) /\
  (forall l, l <> ("load", STORAGE_TYPE) -> l <> (inner, STORAGE_TYPE) ->
     counter_value (total w') l = counter_value (total w) l /\
     observations (latency w') l = observations (latency w) l).
Proof.
  intros inner w' total latency. subst w' total latency.
  change (Storage.load default_timer STORAGE_TYPE storage_runner k stream w)
    with (invoke (CallLoad k stream) w).
  assert (forall l, hits (CallLoad k stream) l =
            ((if decide (("load", STORAGE_TYPE) = l) then 1 else 0) +
             (if decide ((inner, STORAGE_TYPE) = l) then 1 else 0))%nat) as Hh.
  { intros l. subst inner. unfold hits, series.
    destruct stream; simpl; lia. }
  assert (forall l n, hits (CallLoad k stream) l = n ->
            exists ds, length ds = n /\ Forall (fun d => 0 <= d) ds /\
              observations (storage_request_latency (snd (invoke (CallLoad k stream) w))) l =
              observations (storage_request_latency w) l ++ ds) as Hobs.
  { intros l n Hn.
    destruct (invoke_latency (CallLoad k stream) w l) as (ds & H1 & H2 & H3).
    exists ds. by rewrite <- Hn. }
  assert (("load", STORAGE_TYPE) <> (inner, STORAGE_TYPE)) as Hne
    by (subst inner; destruct stream; congruence).
  split; [|split; [|split; [|split]]].
  - rewrite invoke_total, Hh, decide_True, decide_False by congruence. lia.
  - rewrite invoke_total, Hh, decide_False, decide_True by congruence. lia.
  - destruct (Hobs ("load", STORAGE_TYPE) 1%nat) as (ds & Hlen & Hpos & Heq).
    { rewrite Hh, decide_True, decide_False by congruence. lia. }
    destruct ds as [|d [|? ?]]; try discriminate.
    exists d. split; [by inversion Hpos | exact Heq].
  - destruct (Hobs (inner, STORAGE_TYPE) 1%nat) as (ds & Hlen & Hpos & Heq).
    { rewrite Hh, decide_False, decide_True by congruence. lia. }
    destruct ds as [|d [|? ?]]; try discriminate.
    exists d. split; [by inversion Hpos | exact Heq].
  - intros l Hl1 Hl2. split.
    + rewrite invoke_total, Hh, !decide_False by congruence. lia.
    + destruct (Hobs l 0%nat) as (ds & Hlen & Hpos & Heq).
      { rewrite Hh, !decide_False by congruence. lia. }
      destruct ds; try discriminate. by rewrite Heq, app_nil_r.
Qed.

(** C10: [load_stream(key)] hands the adapter's generator to the caller
    as it received it: between the start of the call and its end the
    environment went through the adapter's [load_stream] and the two
    clock readings only, no resumption of the generator. Whatever
    happens while the caller iterates the generator afterwards, an
    exception included, leaves both counters, the histogram and the log
    untouched. An exception raised by the adapter's [load_stream]
    itself is counted under ["load_stream"] and logged. *)
Theorem load_stream_failures_outside_instrumentation (k : string) (w : World E) :
  let call := Storage.load_stream default_timer STORAGE_TYPE storage_runner k w in
  let x1 := snd (default_timer (env w)) in
  let l := ("load_stream", STORAGE_TYPE) in
  (forall g, fst (bs_load_stream storage_runner k x1) = Return (VGen g) ->
     fst call = Return (VGen g) /\
     env (snd call) = snd (default_timer (snd (bs_load_stream storage_runner k x1))) /\
     storage_request_failed_counter (snd call) = storage_request_failed_counter w /\
     logger (snd call) = logger w /\
     forall n,
       let after := snd (consume n g (snd call)) in
       storage_request_total_counter after = storage_request_total_counter (snd call) /\
       storage_request_failed_counter after = storage_request_failed_counter w /\
       storage_request_latency after = storage_request_latency (snd call) /\
       logger after = logger w) /\
  (forall e, fst (bs_load_stream storage_runner k x1) = Raise e ->
     fst call = Raise e /\
     counter_value (storage_request_failed_counter (snd call)) l =
       S (counter_value (storage_request_failed_counter w) l) /\
     logger (snd call) = logger w ++ [mkLog ("Failed to load_stream file " +:+ k) e]).
Proof.
  simpl.
  pose proof (invoke_outcome (CallLoadStream k) w) as Hout.
  pose proof (invoke_logger (CallLoadStream k) w) as Hlog.
  pose proof (invoke_failed (CallLoadStream k) w ("load_stream", STORAGE_TYPE)) as Hfail.
  pose proof (hits_own_label (CallLoadStream k)) as Hhits.
  unfold backend_outcome, env_at_call in Hout, Hlog, Hfail.
  simpl in Hout, Hlog, Hfail, Hhits.
  split.
  - intros g Hg.
    assert (storage_request_failed_counter
              (snd (Storage.load_stream default_timer STORAGE_TYPE storage_runner k w))
            = storage_request_failed_counter w) as Hsame.
    { apply (invoke_failed_same (CallLoadStream k) w).
      unfold backend_outcome, env_at_call. simpl. intros e He. congruence. }
    rewrite Hg in Hout, Hlog. rewrite app_nil_r in Hlog.
    split; [exact Hout|]. split.
    { clear. unfold Storage.load_stream, timeit, try_log, call_backend,
        timer_enter, timer_exit. simpl.
      destruct (default_timer (env w)) as [t0 x1]. simpl.
      destruct (bs_load_stream storage_runner k x1) as [[v|e|b] x2]; simpl;
        destruct (default_timer x2) as [t1 x3]; reflexivity. }
    split; [exact Hsame|]. split; [exact Hlog|].
    intros n. simpl.
    destruct (consume_frame n g
                (snd (Storage.load_stream default_timer STORAGE_TYPE storage_runner k w)))
      as (Ht & Hf & Hl & Hlg).
    rewrite <- Hsame, <- Hlog. done.
  - intros e He. rewrite He in Hout, Hlog, Hfail.
    split; [exact Hout|]. split; [|exact Hlog].
    rewrite Hfail, Hhits. lia.
Qed.

(** C6: with an adapter that keeps the round-trip contract, a
    [save(k, b)] that returns, followed at once by [load_once(k)],
    returns the bytes [b]. *)
Theorem save_then_load_once_round_trip (k : string) (b : bytes) (w : World E)
    (v : Value E) :
  RoundTripContract default_timer storage_runner ->
  fst (Storage.save storage_runner k b w) = Return v ->
  fst (Storage.load_once default_timer STORAGE_TYPE storage_runner k
         (snd (Storage.save storage_runner k b w))) = Return (VBytes b).
Proof.
  intros [Hrt Hclock] Hsave.
  etransitivity; [exact (invoke_outcome (CallLoadOnce k) _)|].
  unfold backend_outcome, env_at_call. simpl.
  rewrite Hclock.
  revert Hsave. unfold Storage.save, try_log, call_backend, bind, ret. simpl.
  destruct (bs_save storage_runner k b (env w)) as [[v'|e|bb] x'] eqn:Hs; simpl;
    intros Hsave; try discriminate.
  exact (Hrt k b (env w) x' v' Hs).
Qed.

End FacadeProperties.

(** ** The backend factory *)

Section FactoryProperties.

Variable storage_type_value : StorageType -> string.

Local Abbreviation match_cases := (Storage.match_cases storage_type_value).
Local Abbreviation get_storage_factory :=
  (Storage.get_storage_factory storage_type_value).

Lemma storage_types_complete (t : StorageType) : t ∈ storage_types.
Proof. unfold storage_types. destruct t; set_solver. Qed.

(** A case is taken only for a member whose value is the identifier. *)
Lemma match_cases_Some (cases : list StorageType) (s : string) (t : StorageType) :
  match_cases cases s = Some t -> t ∈ cases /\ storage_type_value t = s.
Proof.
  induction cases as [|t' rest IH]; simpl; [discriminate|].
  destruct (String.eqb s (storage_type_value t')) eqn:Heq.
  - intros [= <-]. apply String.eqb_eq in Heq. split; [apply elem_of_cons; by left | done].
  - intros H. destruct (IH H). split; [apply elem_of_cons; by right | done].
Qed.

(** No case is taken exactly when no listed member has that value. *)
Lemma match_cases_None (cases : list StorageType) (s : string) :
  match_cases cases s = None <-> forall t, t ∈ cases -> storage_type_value t <> s.
Proof.
  induction cases as [|t' rest IH]; simpl.
  - split; [intros _ t Ht; by apply elem_of_nil in Ht | done].
  - destruct (String.eqb s (storage_type_value t')) eqn:Heq.
    + apply String.eqb_eq in Heq. split; [discriminate|].
      intros H. exfalso. apply (H t'); [apply elem_of_cons; by left | done].
    + apply String.eqb_neq in Heq. rewrite IH. split.
      * intros H t Ht. apply elem_of_cons in Ht as [->|Ht]; [congruence | by apply H].
      * intros H t Ht. apply H. apply elem_of_cons. by right.
Qed.

(** With pairwise distinct values every member gets its own case. *)
Lemma get_storage_factory_member (t : StorageType) :
  (forall t1 t2, storage_type_value t1 = storage_type_value t2 -> t1 = t2) ->
  get_storage_factory (storage_type_value t) = Return (factory_of t).
Proof.
  intros Hinj. unfold Storage.get_storage_factory.
  destruct (match_cases storage_types (storage_type_value t)) as [t'|] eqn:Hm.
  - apply match_cases_Some in Hm as [_ Hv]. by rewrite (Hinj _ _ Hv).
  - exfalso. rewrite match_cases_None in Hm.
    by apply (Hm t (storage_types_complete t)).
Qed.

(** C3: for each of the twelve enumerated identifiers
    [get_storage_factory] returns a constructor; for every string that
    is not the value of a member it raises the unsupported-type error
    itself, so that [init_app] fails before any constructor is called. *)
Theorem get_storage_factory_total_and_fail_fast :
  length storage_types = 12%nat /\
  (forall t, exists f, get_storage_factory (storage_type_value t) = Return f) /\
  (forall s, (forall t, storage_type_value t <> s) ->
     exists e, get_storage_factory s = Raise e /\ UnsupportedBackendType s e) /\
  (forall (R : Type) (construct : StorageFactory -> Outcome R) s,
     (forall t, storage_type_value t <> s) ->
     exists e, Storage.init_app storage_type_value s construct = Raise e /\
               UnsupportedBackendType s e).
Proof.
  assert (forall s, (forall t, storage_type_value t <> s) ->
            get_storage_factory s =
            Raise (ValueError ("unsupported storage type " +:+ s))) as Hfail.
  { intros s Hs. unfold Storage.get_storage_factory.
    destruct (match_cases storage_types s) as [t|] eqn:Hm; [|reflexivity].
    apply match_cases_Some in Hm as [_ Hv]. by destruct (Hs t). }
  split; [reflexivity|]. split; [|split].
  - intros t. unfold Storage.get_storage_factory.
    destruct (match_cases storage_types (storage_type_value t)) as [t'|] eqn:Hm;
      [eauto|].
    exfalso. rewrite match_cases_None in Hm.
    by apply (Hm t (storage_types_complete t)).
  - intros s Hs. eexists. split; [exact (Hfail s Hs) | reflexivity].
  - intros R construct s Hs. unfold Storage.init_app. rewrite (Hfail s Hs).
    eexists. split; reflexivity.
Qed.

End FactoryProperties.

(** ** The model at concrete inputs *)

Lemma MemoryStorage_round_trip : RoundTripContract ticking_timer MemoryStorage.
Proof.
  split.
  - intros k b x x' v Hsave. simpl in Hsave. injection Hsave as _ <-.
    simpl. by rewrite lookup_insert_eq.
  - intros k x. simpl. by destruct (objects x !! k).
Qed.

Example save_then_load_counts :
  let w1 := snd (Storage.save MemoryStorage "a.txt" [Byte.x00] empty_world) in
  let '(r, w2) := Storage.load ticking_timer "local" MemoryStorage "a.txt" false w1 in
  r = Return (VBytes [Byte.x00]) /\
  counter_value (storage_request_total_counter w2) ("save", "local") = 0%nat /\
  counter_value (storage_request_total_counter w2) ("load", "local") = 1%nat /\
  counter_value (storage_request_total_counter w2) ("load_once", "local") = 1%nat /\
  observations (storage_request_latency w2) ("load_once", "local") = [4] /\
  observations (storage_request_latency w2) ("load", "local") = [6] /\
  observations (storage_request_latency w2) ("save", "local") = [] /\
  logger w2 = [].
Proof. vm_compute. repeat split; reflexivity. Qed.

Example failing_load_is_logged_twice :
  let '(r, w) := Storage.load ticking_timer "local" (FailingStorage ConnectionError)
                   "a.txt" false empty_world in
  r = Raise ConnectionError /\
  counter_value (storage_request_failed_counter w) ("load", "local") = 1%nat /\
  counter_value (storage_request_failed_counter w) ("load_once", "local") = 1%nat /\
  map log_message (logger w) =
    ["Failed to load_once file a.txt"; "Failed to load file a.txt"].
Proof. vm_compute. repeat split; reflexivity. Qed.

Example failing_save_is_logged_but_not_counted :
  let '(r, w) := Storage.save (FailingStorage ConnectionError) "a.txt" [] empty_world in
  r = Raise ConnectionError /\
  counter_value (storage_request_total_counter w) ("save", "local") = 0%nat /\
  counter_value (storage_request_failed_counter w) ("save", "local") = 0%nat /\
  observations (storage_request_latency w) ("save", "local") = [] /\
  map log_message (logger w) = ["Failed to save file a.txt"].
Proof. vm_compute. repeat split; reflexivity. Qed.

(** A signal outside [Exception] passes both handlers: it is timed, but
    neither counted as a failure nor logged. *)
Example base_exception_passes_handlers :
  let runner := {| bs_save _ _ x := (RaiseBase KeyboardInterrupt, x);
                   bs_load_once _ x := (RaiseBase KeyboardInterrupt, x);
                   bs_load_stream _ x := (RaiseBase KeyboardInterrupt, x);
                   bs_download _ _ x := (RaiseBase KeyboardInterrupt, x);
                   bs_exists _ x := (RaiseBase KeyboardInterrupt, x);
                   bs_delete _ x := (RaiseBase KeyboardInterrupt, x) |} in
  let '(r, w) := Storage.exists_ ticking_timer "local" runner "a.txt" empty_world in
  r = RaiseBase KeyboardInterrupt /\
  counter_value (storage_request_total_counter w) ("exists", "local") = 1%nat /\
  counter_value (storage_request_failed_counter w) ("exists", "local") = 0%nat /\
  observations (storage_request_latency w) ("exists", "local") = [1] /\
  logger w = [].
Proof. vm_compute. repeat split; reflexivity. Qed.

Example broken_stream_is_not_counted :
  let e := ConnectionError in
  let runner := BrokenStreamStorage [Byte.x01] e in
  let '(r, w) := Storage.load_stream ticking_timer "local" runner "a.txt" empty_world in
  r = Return (VGen (broken_generator [Byte.x01] e)) /\
  let '(chunks, ending, w') := consume 5 (broken_generator [Byte.x01] e) w in
  chunks = [[Byte.x01]] /\ ending = Some (Raise e) /\
  counter_value (storage_request_failed_counter w') ("load_stream", "local") = 0%nat /\
  logger w' = [].
Proof. vm_compute. repeat split; reflexivity. Qed.

Example factory_of_upstream_identifiers :
  Storage.get_storage_factory upstream_value "local" = Return OpenDALStorage_fs /\
  Storage.get_storage_factory upstream_value "s3" = Return AwsS3Storage /\
  Storage.get_storage_factory upstream_value "ftp" =
    Raise (mkExc "ValueError" "unsupported storage type ftp").
Proof. repeat split; reflexivity. Qed.

(** ** The theorems applied at concrete inputs *)

Lemma backend_exception_propagates_witness :
  backend_outcome ticking_timer (FailingStorage ConnectionError)
    (CallDelete "a.txt") empty_world = Raise ConnectionError /\
  fst (invoke ticking_timer "local" (FailingStorage ConnectionError)
         (CallDelete "a.txt") empty_world) = Raise ConnectionError.
Proof.
  split; [reflexivity|].
  apply (backend_exception_propagates ticking_timer "local"
           (FailingStorage ConnectionError) (CallDelete "a.txt") empty_world
           ConnectionError).
  reflexivity.
Defined.

Lemma success_keeps_failure_counter_witness :
  fst (invoke ticking_timer "local" MemoryStorage (CallExists "a.txt") empty_world)
    = Return (VBool false) /\
  storage_request_failed_counter
    (snd (invoke ticking_timer "local" MemoryStorage (CallExists "a.txt") empty_world))
    = storage_request_failed_counter empty_world.
Proof.
  split; [reflexivity|].
  apply (success_keeps_failure_counter ticking_timer "local" MemoryStorage
           (CallExists "a.txt") empty_world (VBool false)).
  reflexivity.
Defined.

Lemma timeit_observes_once_and_counts_failure_witness :
  let func : M MemEnv (Value MemEnv) :=
    try_log (call_backend (bs_exists (FailingStorage ConnectionError) "a.txt"))
            "Failed to check file exists a.txt" in
  let l := ("exists", "local") in
  (forall w0, observations (storage_request_latency (snd (func w0))) l =
              observations (storage_request_latency w0) l) /\
  (forall w0, counter_value (storage_request_failed_counter (snd (func w0))) l =
              counter_value (storage_request_failed_counter w0) l) /\
  exists d, 0 <= d /\
    observations (storage_request_latency
                    (snd (timeit ticking_timer "local" "exists" func empty_world))) l =
    observations (storage_request_latency empty_world) l ++ [d].
Proof.
  intros func l.
  assert (forall w0, observations (storage_request_latency (snd (func w0))) l =
                     observations (storage_request_latency w0) l) as H1
    by (intros w0; reflexivity).
  assert (forall w0, counter_value (storage_request_failed_counter (snd (func w0))) l =
                     counter_value (storage_request_failed_counter w0) l) as H2
    by (intros w0; reflexivity).
  split; [exact H1|]. split; [exact H2|].
  exact (proj1 (timeit_observes_once_and_counts_failure ticking_timer "local"
                  "exists" func empty_world H1 H2)).
Defined.

Lemma save_then_load_once_round_trip_witness :
  RoundTripContract ticking_timer MemoryStorage /\
  fst (Storage.save MemoryStorage "a.txt" [Byte.x00] empty_world) = Return VNone /\
  fst (Storage.load_once ticking_timer "local" MemoryStorage "a.txt"
         (snd (Storage.save MemoryStorage "a.txt" [Byte.x00] empty_world)))
    = Return (VBytes [Byte.x00]).
Proof.
  split; [exact MemoryStorage_round_trip|]. split; [reflexivity|].
  apply (save_then_load_once_round_trip ticking_timer "local" MemoryStorage
           "a.txt" [Byte.x00] empty_world VNone MemoryStorage_round_trip).
  reflexivity.
Defined.

Lemma load_stream_failures_outside_instrumentation_witness :
  let e := ConnectionError in
  let runner := BrokenStreamStorage [Byte.x01] e in
  let g := broken_generator [Byte.x01] e in
  let call := Storage.load_stream ticking_timer "local" runner "a.txt" empty_world in
  fst (bs_load_stream runner "a.txt" (snd (ticking_timer (env empty_world))))
    = Return (VGen g) /\
  snd (fst (consume 5 g (snd call))) = Some (Raise e) /\
  storage_request_failed_counter (snd (consume 5 g (snd call))) =
    storage_request_failed_counter empty_world /\
  logger (snd (consume 5 g (snd call))) = logger empty_world.
Proof.
  intros e runner g call.
  assert (fst (bs_load_stream runner "a.txt" (snd (ticking_timer (env empty_world))))
          = Return (VGen g)) as Hg by reflexivity.
  split; [exact Hg|]. split; [reflexivity|].
  destruct (load_stream_failures_outside_instrumentation ticking_timer "local"
              runner "a.txt" empty_world) as [Hiter _].
  destruct (Hiter g Hg) as (_ & _ & _ & _ & Hn).
  destruct (Hn 5%nat) as (_ & Hf & _ & Hl).
  split; [exact Hf | exact Hl].
Defined.

Lemma upstream_value_rejects_ftp : forall t, upstream_value t <> "ftp".
Proof. intros t. destruct t; discriminate. Qed.

Lemma get_storage_factory_total_and_fail_fast_witness :
  (forall t, upstream_value t <> "ftp") /\
  exists e, Storage.get_storage_factory upstream_value "ftp" = Raise e /\
            UnsupportedBackendType "ftp" e.
Proof.
  split; [exact upstream_value_rejects_ftp|].
  destruct (get_storage_factory_total_and_fail_fast upstream_value)
    as (_ & _ & Hfail & _).
  exact (Hfail "ftp" upstream_value_rejects_ftp).
Defined.

(** * Further properties of the facade *)

Lemma occurrences_absent (l : Label) (ls : list Label) :
  l ∉ ls -> occurrences l ls = 0%nat.
Proof.
  induction ls as [|l' rest IH]; simpl; [done|].
  intros Hnot. apply not_elem_of_cons in Hnot as [Hne Hrest].
  rewrite decide_False by congruence. by rewrite IH.
Qed.

Section FacadeRuns.

Context {E : Type}.
Variable default_timer : E -> Z * E.
Variable STORAGE_TYPE : string.
Variable storage_runner : BaseStorage E.

Local Abbreviation invoke := (invoke default_timer STORAGE_TYPE storage_runner).
Local Abbreviation backend_outcome := (backend_outcome default_timer storage_runner).
Local Abbreviation hits := (hits STORAGE_TYPE).
Local Abbreviation series := (series STORAGE_TYPE).
Local Abbreviation run := (run default_timer STORAGE_TYPE storage_runner).
Local Abbreviation instrumented_calls := (instrumented_calls STORAGE_TYPE).

Ltac expose :=
  unfold invoke, Storage.save, Storage.load, Storage.load_once,
    Storage.load_stream, Storage.download, Storage.exists_, Storage.delete,
    timeit, try_log, call_backend, bind, ret, timer_enter, timer_exit,
    total_inc, failed_inc, latency_observe, logger_exception, set_env,
    backend_outcome, backend_call, env_at_call, timers_entered;
  simpl.

Ltac plain x :=
  lazymatch x with
  | env ?w => is_var w
  | _ => is_var x
  end.

Ltac step_clock :=
  match goal with
  | |- context [default_timer ?x] =>
      plain x; destruct (default_timer x) as [? ?] eqn:?; simpl
  end.

Ltac step_adapter :=
  match goal with
  | |- context [?f storage_runner ?k ?x] =>
      plain x; destruct (f storage_runner k x) as [[?|?|?] ?] eqn:?; simpl
  | |- context [?f storage_runner ?k ?a ?x] =>
      plain x; destruct (f storage_runner k a x) as [[?|?|?] ?] eqn:?; simpl
  end.

Ltac walk := repeat first [step_clock | step_adapter].

(** X1: what each method returns. [save] and [download] return [None]
    whatever their adapter method returned; the other five hand the
    adapter's value to the caller as it is. *)
Theorem facade_return_values (c : Call) (w : World E) (v : Value E) :
  backend_outcome c w = Return v ->
  fst (invoke c w) =
  Return (match c with
          | CallSave _ _ | CallDownload _ _ => VNone
          | _ => v
          end).
Proof.
  intros Hv. rewrite invoke_outcome, Hv. by destruct c.
Qed.

(** X2: a signal that derives from [BaseException] only
    ([KeyboardInterrupt], [SystemExit], [GeneratorExit]) raised by the
    adapter reaches the caller unchanged; the call is counted as a request
    and timed under each of its series, but it is neither counted as a
    failure nor logged. *)
Theorem base_exception_passes_through (c : Call) (w : World E) (b : BaseOnly) :
  backend_outcome c w = RaiseBase b ->
  fst (invoke c w) = RaiseBase b /\
  logger (snd (invoke c w)) = logger w /\
  storage_request_failed_counter (snd (invoke c w)) =
    storage_request_failed_counter w /\
  forall l,
    counter_value (storage_request_total_counter (snd (invoke c w))) l =
      (counter_value (storage_request_total_counter w) l + hits c l)%nat /\
    length (observations (storage_request_latency (snd (invoke c w))) l) =
      (length (observations (storage_request_latency w) l) + hits c l)%nat.
Proof.
  intros Hb. split; [|split; [|split]].
  - rewrite invoke_outcome, Hb. by destruct c.
  - by rewrite invoke_logger, Hb, app_nil_r.
  - apply invoke_failed_same. intros e He. congruence.
  - intros l. split; [apply invoke_total|].
    destruct (invoke_latency default_timer STORAGE_TYPE storage_runner c w l)
      as (ds & Hobs & Hlen & _).
    by rewrite Hobs, length_app, Hlen.
Qed.

(** X3: a call writes to its own series only. Under any label that is
    not one of the call's series, in particular under any other provider
    and under any other method name, both counters and the histogram read
    as before the call. *)
Theorem other_series_untouched (c : Call) (w : World E) (l : Label) :
  l ∉ series c ->
  counter_value (storage_request_total_counter (snd (invoke c w))) l =
    counter_value (storage_request_total_counter w) l /\
  counter_value (storage_request_failed_counter (snd (invoke c w))) l =
    counter_value (storage_request_failed_counter w) l /\
  observations (storage_request_latency (snd (invoke c w))) l =
    observations (storage_request_latency w) l.
Proof.
  intros Hnot.
  assert (hits c l = 0%nat) as Hz by (by apply occurrences_absent).
  split; [|split].
  - rewrite invoke_total, Hz. lia.
  - rewrite invoke_failed, Hz. destruct (backend_outcome c w); lia.
  - destruct (invoke_latency default_timer STORAGE_TYPE storage_runner c w l)
      as (ds & Hobs & Hlen & _).
    rewrite Hz in Hlen. destruct ds; [|discriminate]. by rewrite Hobs, app_nil_r.
Qed.

(** X4: one attempt per call. The environment after a facade call is the
    environment after a single call of the one adapter method, followed
    by the clock readings that close the timers; this holds when the
    adapter raises as well, so nothing is retried or called twice. *)
Theorem adapter_called_exactly_once (c : Call) (w : World E) :
  env (snd (invoke c w)) =
  Nat.iter (timers_entered c) (fun y => snd (default_timer y))
    (snd (backend_call storage_runner c (env_at_call default_timer c (env w)))).
Proof.
  destruct c as [k d|k [|]|k|k|k p|k|k]; expose; walk; reflexivity.
Qed.

(** One call, seen from a single series. *)
Lemma invoke_series_step (c : Call) (w : World E) (l : Label) :
  let w' := snd (invoke c w) in
  exists failures : nat,
    (failures <= hits c l)%nat /\
    counter_value (storage_request_total_counter w') l =
      (counter_value (storage_request_total_counter w) l + hits c l)%nat /\
    counter_value (storage_request_failed_counter w') l =
      (counter_value (storage_request_failed_counter w) l + failures)%nat /\
    length (observations (storage_request_latency w') l) =
      (length (observations (storage_request_latency w) l) + hits c l)%nat.
Proof.
  simpl.
  exists (match backend_outcome c w with Raise _ => hits c l | _ => 0%nat end).
  split; [destruct (backend_outcome c w); lia|].
  split; [apply invoke_total|]. split; [apply invoke_failed|].
  destruct (invoke_latency default_timer STORAGE_TYPE storage_runner c w l)
    as (ds & Hobs & Hlen & _).
  by rewrite Hobs, length_app, Hlen.
Qed.

(** X5: over any sequence of facade calls the request counter of a series
    grows by the number of calls instrumented under it, whatever the
    calls returned or raised. Calls of [save] count under no series, and a
    [load] counts under ["load"] and under the method it goes through. *)
Theorem run_counts_requests (calls : list Call) (w : World E) (l : Label) :
  counter_value (storage_request_total_counter (run calls w)) l =
  (counter_value (storage_request_total_counter w) l + instrumented_calls calls l)%nat.
Proof.
  revert w. induction calls as [|c rest IH]; intros w; simpl.
  - unfold instrumented_calls. simpl. lia.
  - rewrite IH, invoke_total. unfold instrumented_calls. simpl. lia.
Qed.

(** X6: in every series the number of latency observations stays equal
    to the request counter: if the two agree before a sequence of facade
    calls, they agree after it. *)
Theorem run_keeps_observations_in_step (calls : list Call) (w : World E) (l : Label) :
  length (observations (storage_request_latency w) l) =
    counter_value (storage_request_total_counter w) l ->
  length (observations (storage_request_latency (run calls w)) l) =
    counter_value (storage_request_total_counter (run calls w)) l.
Proof.
  revert w. induction calls as [|c rest IH]; intros w Hw; simpl; [exact Hw|].
  apply IH.
  destruct (invoke_series_step c w l) as (f & _ & Ht & _ & Hl).
  rewrite Ht, Hl, Hw. reflexivity.
Qed.

(** X7: in every series the failure counter never overtakes the request
    counter: if it is at most the request counter before a sequence of
    facade calls, it is so after it. *)
Theorem run_keeps_failures_below_requests (calls : list Call) (w : World E) (l : Label) :
  (counter_value (storage_request_failed_counter w) l <=
   counter_value (storage_request_total_counter w) l)%nat ->
  (counter_value (storage_request_failed_counter (run calls w)) l <=
   counter_value (storage_request_total_counter (run calls w)) l)%nat.
Proof.
  revert w. induction calls as [|c rest IH]; intros w Hw; simpl; [exact Hw|].
  apply IH.
  destruct (invoke_series_step c w l) as (f & Hf & Ht & Hfail & _).
  rewrite Ht, Hfail. lia.
Qed.

(** X8: when successive readings of the clock never decrease, the
    latency that [load] records under ["load"] is at least the latency
    recorded for the same call under ["load_once"] or ["load_stream"]:
    the outer timer encloses the inner one. *)
Theorem load_latency_covers_delegate (k : string) (stream : bool) (w : World E) :
  (forall x, fst (default_timer x) <= fst (default_timer (snd (default_timer x)))) ->
  let inner := if stream then "load_stream" else "load_once" in
  let w' := snd (Storage.load default_timer STORAGE_TYPE storage_runner k stream w) in
  exists d_inner d_outer : Z,
    observations (storage_request_latency w') (inner, STORAGE_TYPE) =
      observations (storage_request_latency w) (inner, STORAGE_TYPE) ++ [d_inner] /\
    observations (storage_request_latency w') ("load", STORAGE_TYPE) =
      observations (storage_request_latency w) ("load", STORAGE_TYPE) ++ [d_outer] /\
    0 <= d_inner <= d_outer.
Proof.
  intros Hmono inner w'. subst inner w'.
  assert (forall x t x' t' x'',
            default_timer x = (t, x') -> default_timer x' = (t', x'') -> t <= t')
    as Hnext.
  { intros x t x' t' x'' H1 H2. pose proof (Hmono x) as Hm.
    rewrite H1 in Hm. simpl in Hm. by rewrite H2 in Hm. }
  destruct stream; expose; walk;
    rewrite !observations_observe;
    repeat case_decide; try congruence; simpl; rewrite ?app_nil_r;
    (eexists; eexists; split; [reflexivity|]; split; [reflexivity|]);
    repeat match goal with
      | H1 : default_timer ?x = (?t, ?x'), H2 : default_timer ?x' = (?t', _) |- _ =>
          lazymatch goal with
          | _ : t <= t' |- _ => fail
          | _ => pose proof (Hnext _ _ _ _ _ H1 H2)
          end
      end; lia.
Qed.

End FacadeRuns.

(** ** Before and after [init_app] *)

Section Uninitialised.

Context {E : Type}.
Variable default_timer : E -> Z * E.
Variable STORAGE_TYPE : string.

Lemma unset_runner_outcome (c : Call) (w : World E) :
  backend_outcome default_timer unset_runner c w =
  Raise (AttributeError "'Storage' object has no attribute 'storage_runner'").
Proof. by destruct c as [k d|k [|]|k|k|k p|k|k]. Qed.

(** X9: a facade method called on the object before [init_app] has
    assigned [storage_runner] raises [AttributeError]; the method's
    handler logs it like a backend failure, the decorated methods count
    it as a failed request, and the environment has only seen the clock
    readings. *)
Theorem call_before_init_app_fails (c : Call) (w : World E) :
  let e := AttributeError "'Storage' object has no attribute 'storage_runner'" in
  let r := invoke default_timer STORAGE_TYPE (runner_of None) c w in
  let tick := fun y => snd (default_timer y) in
  fst r = Raise e /\
  logger (snd r) = logger w ++ failure_records c e /\
  (forall l, counter_value (storage_request_failed_counter (snd r)) l =
             (counter_value (storage_request_failed_counter w) l +
              hits STORAGE_TYPE c l)%nat) /\
  env (snd r) = Nat.iter (timers_entered c) tick (Nat.iter (timers_entered c) tick (env w)).
Proof.
  simpl. split; [|split; [|split]].
  - by rewrite invoke_outcome, unset_runner_outcome, facade_result_raise.
  - by rewrite invoke_logger, unset_runner_outcome.
  - intros l. by rewrite invoke_failed, unset_runner_outcome.
  - destruct c as [k d|k [|]|k|k|k p|k|k];
      unfold invoke, Storage.save, Storage.load, Storage.load_once,
        Storage.load_stream, Storage.download, Storage.exists_, Storage.delete,
        timeit, try_log, call_backend, bind, ret, timer_enter, timer_exit;
      simpl;
      repeat match goal with
        | |- context [default_timer ?x] =>
            first [is_var x | lazymatch x with env ?w0 => is_var w0 end];
            destruct (default_timer x) as [? ?] eqn:?; simpl
        end;
      reflexivity.
Qed.

End Uninitialised.

Section InitApp.

Variable storage_type_value : StorageType -> string.

(** X10: [get_storage_factory] returns a constructor only for the value
    of an enumerated member, and then the constructor of a member with
    that value; it never returns anything for another string. *)
Theorem get_storage_factory_only_for_members (s : string) (f : StorageFactory) :
  Storage.get_storage_factory storage_type_value s = Return f ->
  exists t, storage_type_value t = s /\ f = factory_of t.
Proof.
  unfold Storage.get_storage_factory.
  destruct (Storage.match_cases storage_type_value storage_types s) as [t|] eqn:Hm;
    [|discriminate].
  intros [= <-]. exists t. apply match_cases_Some in Hm as [_ Hv]. done.
Qed.

(** X11: with pairwise distinct member values, [init_app] under the
    identifier of member [t] calls the constructor of [t] and no other;
    [storage_runner] is assigned exactly when that call returns, and when
    it raises the error reaches the caller and the object stays as it
    was. *)
Theorem init_app_assigns_on_success {R : Type} (t : StorageType)
    (construct : StorageFactory -> Outcome R) (storage : option R) :
  (forall t1 t2, storage_type_value t1 = storage_type_value t2 -> t1 = t2) ->
  init_app storage_type_value (storage_type_value t) construct storage =
  match construct (factory_of t) with
  | Return runner => (Return tt, Some runner)
  | Raise e => (Raise e, storage)
  | RaiseBase b => (RaiseBase b, storage)
  end.
Proof.
  intros Hinj. unfold init_app, Storage.init_app.
  by rewrite (get_storage_factory_member storage_type_value t Hinj).
Qed.

End InitApp.

(** * Properties of the views of [ext_app_metrics] *)

Lemma threads_loop_map (threads : list Thread) (thread_list : list Json) :
  threads_loop threads thread_list = thread_list ++ map thread_entry threads.
Proof.
  revert thread_list. induction threads as [|thread rest IH]; intros thread_list; simpl.
  - by rewrite app_nil_r.
  - by rewrite IH, <- app_assoc.
Qed.

(** X12: the body of [/threads] lists one entry per thread that
    [threading.enumerate()] returned, in that order, each with the
    thread's name, id and liveness; [thread_num] is what
    [threading.active_count()] returned, and equals the length of the list
    whenever the two readings agree. *)
Theorem threads_lists_every_thread (p : Process) :
  exists thread_list : list Json,
    body (threads p) =
      JDict [("pid", JInt (getpid p));
             ("thread_num", JInt (Z.of_nat (active_count p)));
             ("threads", JList thread_list)] /\
    length thread_list = length (enumerate p) /\
    (forall i thread, enumerate p !! i = Some thread ->
                      thread_list !! i = Some (thread_entry thread)) /\
    (active_count p = length (enumerate p) ->
     Z.of_nat (active_count p) = Z.of_nat (length thread_list)).
Proof.
  exists (map thread_entry (enumerate p)).
  split; [|split; [|split]].
  - unfold threads, dict_response. simpl. by rewrite threads_loop_map.
  - by rewrite length_map.
  - intros i thread Hi. by rewrite list_lookup_fmap, Hi.
  - intros ->. by rewrite length_map.
Qed.



(** ** The further properties at concrete inputs *)

Lemma facade_return_values_witness :
  backend_outcome ticking_timer MemoryStorage (CallDelete "a.txt") empty_world
    = Return VNone /\
  fst (invoke ticking_timer "local" (ConstantStorage (Return (VBool true)))
         (CallSave "a.txt" []) empty_world) = Return VNone.
Proof.
  split; [reflexivity|].
  apply (facade_return_values ticking_timer "local"
           (ConstantStorage (Return (VBool true))) (CallSave "a.txt" [])
           empty_world (VBool true)).
  reflexivity.
Defined.

Lemma base_exception_passes_through_witness :
  let runner := ConstantStorage (RaiseBase KeyboardInterrupt) in
  backend_outcome ticking_timer runner (CallExists "a.txt") empty_world
    = RaiseBase KeyboardInterrupt /\
  fst (invoke ticking_timer "local" runner (CallExists "a.txt") empty_world)
    = RaiseBase KeyboardInterrupt /\
  logger (snd (invoke ticking_timer "local" runner (CallExists "a.txt") empty_world))
    = logger empty_world.
Proof.
  intros runner.
  assert (backend_outcome ticking_timer runner (CallExists "a.txt") empty_world
          = RaiseBase KeyboardInterrupt) as Hb by reflexivity.
  split; [exact Hb|].
  destruct (base_exception_passes_through ticking_timer "local" runner
              (CallExists "a.txt") empty_world KeyboardInterrupt Hb)
    as (Hr & Hl & _).
  split; [exact Hr | exact Hl].
Defined.

Lemma other_series_untouched_witness :
  (("delete", "local") ∉ series "local" (CallExists "a.txt")) /\
  counter_value
    (storage_request_total_counter
       (snd (invoke ticking_timer "local" MemoryStorage (CallExists "a.txt") empty_world)))
    ("delete", "local") =
  counter_value (storage_request_total_counter empty_world) ("delete", "local").
Proof.
  assert (("delete", "local") ∉ series "local" (CallExists "a.txt")) as Hnot.
  { simpl. apply not_elem_of_cons. split; [discriminate | apply not_elem_of_nil]. }
  split; [exact Hnot|].
  exact (proj1 (other_series_untouched ticking_timer "local" MemoryStorage
                  (CallExists "a.txt") empty_world ("delete", "local") Hnot)).
Defined.

Lemma run_keeps_observations_in_step_witness :
  let l := ("load_once", "local") in
  length (observations (storage_request_latency empty_world) l) =
    counter_value (storage_request_total_counter empty_world) l /\
  length (observations (storage_request_latency
            (run ticking_timer "local" MemoryStorage sample_calls empty_world)) l) =
    counter_value (storage_request_total_counter
            (run ticking_timer "local" MemoryStorage sample_calls empty_world)) l.
Proof.
  intros l. split; [reflexivity|].
  apply (run_keeps_observations_in_step ticking_timer "local" MemoryStorage
           sample_calls empty_world l).
  reflexivity.
Defined.

Lemma run_keeps_failures_below_requests_witness :
  let l := ("load_once", "local") in
  (counter_value (storage_request_failed_counter empty_world) l <=
   counter_value (storage_request_total_counter empty_world) l)%nat /\
  (counter_value (storage_request_failed_counter
     (run ticking_timer "local" MemoryStorage sample_calls empty_world)) l <=
   counter_value (storage_request_total_counter
     (run ticking_timer "local" MemoryStorage sample_calls empty_world)) l)%nat.
Proof.
  intros l.
  assert (counter_value (storage_request_failed_counter empty_world) l <=
          counter_value (storage_request_total_counter empty_world) l)%nat as H0
    by (vm_compute; lia).
  split; [exact H0|].
  exact (run_keeps_failures_below_requests ticking_timer "local" MemoryStorage
           sample_calls empty_world l H0).
Defined.

Lemma ticking_timer_monotone (x : MemEnv) :
  fst (ticking_timer x) <= fst (ticking_timer (snd (ticking_timer x))).
Proof. simpl. lia. Qed.

Lemma load_latency_covers_delegate_witness :
  (forall x, fst (ticking_timer x) <= fst (ticking_timer (snd (ticking_timer x)))) /\
  exists d_inner d_outer : Z,
    observations (storage_request_latency
      (snd (Storage.load ticking_timer "local" MemoryStorage "a.txt" false empty_world)))
      ("load_once", "local") =
      observations (storage_request_latency empty_world) ("load_once", "local")
        ++ [d_inner] /\
    observations (storage_request_latency
      (snd (Storage.load ticking_timer "local" MemoryStorage "a.txt" false empty_world)))
      ("load", "local") =
      observations (storage_request_latency empty_world) ("load", "local")
        ++ [d_outer] /\
    0 <= d_inner <= d_outer.
Proof.
  split; [exact ticking_timer_monotone|].
  exact (load_latency_covers_delegate ticking_timer "local" MemoryStorage "a.txt"
           false empty_world ticking_timer_monotone).
Defined.

Lemma get_storage_factory_only_for_members_witness :
  Storage.get_storage_factory upstream_value "s3" = Return AwsS3Storage /\
  exists t, upstream_value t = "s3" /\ AwsS3Storage = factory_of t.
Proof.
  split; [reflexivity|].
  apply (get_storage_factory_only_for_members upstream_value "s3" AwsS3Storage).
  reflexivity.
Defined.

Lemma upstream_value_distinct (t1 t2 : StorageType) :
  upstream_value t1 = upstream_value t2 -> t1 = t2.
Proof. destruct t1, t2; simpl; intros H; first [reflexivity | discriminate H]. Qed.

Lemma init_app_assigns_on_success_witness :
  (forall t1 t2, upstream_value t1 = upstream_value t2 -> t1 = t2) /\
  init_app upstream_value "local"
    (fun f => match f with
              | OpenDALStorage_fs => Return MemoryStorage
              | _ => Raise ConnectionError
              end) None
  = (Return tt, Some MemoryStorage).
Proof.
  split; [exact upstream_value_distinct|].
  exact (init_app_assigns_on_success upstream_value LOCAL
           (fun f => match f with
                     | OpenDALStorage_fs => Return MemoryStorage
                     | _ => Raise ConnectionError
                     end) None upstream_value_distinct).
Defined.

Example views_on_sample_process :
  fst (serve DbPoolStatRoute sample_process zero_metrics) =
    Return (mkResponse 200 "application/json"
              [("X-Version", "1.0.0"); ("X-Env", "PRODUCTION")]
              (JDict [("pid", JInt 4242); ("pool_size", JInt 30);
                      ("checked_in_connections", JInt 3);
                      ("checked_out_connections", JInt 2);
                      ("overflow_connections", JInt (-28));
                      ("connection_timeout", JFloat 30 0);
                      ("recycle_time", JInt 3600)])) /\
  db_pool_overflow_size (snd (serve DbPoolStatRoute sample_process zero_metrics))
    = JInt (-28) /\
  health_check_total_counter (snd (serve HealthRoute sample_process zero_metrics))
    = 0%nat.
Proof. repeat split. Qed.
